(** * Console formatting helpers of notebooks/utils/helper.py

    A shallow embedding of the five printing helpers
    ([print_section], [print_dict], [print_table], [print_results],
    [print_rich_table]) together with the part of Python's value
    model they rely on: dynamic values, truthiness, [str]/[repr],
    [print], format-spec padding and exceptions.

    Conventions.
    - A Python [str] is a Rocq [string]; one character is one code
      point (code points below 256), so [String.length] is [len].
    - A Python [int] is a [Z].  Floating-point values are outside the
      model, and so is resource exhaustion on very large widths.
    - A [dict] is an association list in insertion order whose keys
      are labels (strings).
    - A function that prints returns the trace of its output effects
      (the [print] calls and the tables handed to the styled console)
      together with its outcome (normal return or raised exception).
    - The two rendering libraries are parameters that may raise. *)

From Stdlib Require Import String Ascii List ZArith Lia Bool DecimalString.
Import ListNotations.

#[local] Open Scope string_scope.
#[local] Open Scope Z_scope.

(** ** Characters and text *)

Module Text.

Definition newline : ascii := ascii_of_nat 10.
Definition nl : string := String newline EmptyString.
Definition dquote : ascii := ascii_of_nat 34.
Definition squote : ascii := ascii_of_nat 39.
Definition backslash : ascii := ascii_of_nat 92.

(** [sep.join(parts)]. *)
Fixpoint join (sep : string) (parts : list string) : string :=
  match parts with
  | [] => EmptyString
  | [p] => p
  | p :: ps => p ++ sep ++ join sep ps
  end.

(** [s * n] on a natural count. *)
Fixpoint replicate (n : nat) (s : string) : string :=
  match n with
  | O => EmptyString
  | S k => s ++ replicate k s
  end.

(** [s * n] for a Python int [n]: the empty text when [n <= 0]. *)
Definition str_mul (s : string) (n : Z) : string := replicate (Z.to_nat n) s.

(** [c in s]. *)
Fixpoint contains (c : ascii) (s : string) : bool :=
  match s with
  | EmptyString => false
  | String a rest => Ascii.eqb a c || contains c rest
  end.

Definition no_newline (s : string) : Prop := contains newline s = false.

(** [s.startswith(p)]. *)
Definition startswith (p s : string) : bool := String.prefix p s.

(** Every character of [s] is [c]. *)
Fixpoint all_chars (c : ascii) (s : string) : bool :=
  match s with
  | EmptyString => true
  | String a rest => Ascii.eqb a c && all_chars c rest
  end.

(** The newline-terminated lines of a text, without their terminators
    (a last line need not be terminated). *)
Fixpoint lines (s : string) : list string :=
  match s with
  | EmptyString => []
  | String c rest =>
      if Ascii.eqb c newline then EmptyString :: lines rest
      else match lines rest with
           | [] => [String c EmptyString]
           | l :: ls => String c l :: ls
           end
  end.

(** Each line followed by its terminator. *)
Fixpoint unlines (ls : list string) : string :=
  match ls with
  | [] => EmptyString
  | l :: rest => l ++ nl ++ unlines rest
  end.

(** [str(n)] for an int. *)
Definition str_of_int (n : Z) : string := NilZero.string_of_int (Z.to_int n).

Definition hex_digit (n : nat) : ascii :=
  if Nat.ltb n 10 then ascii_of_nat (48 + n) else ascii_of_nat (87 + n).

(** What [isprintable] answers for a code point below 256. *)
Definition printable (c : ascii) : bool :=
  let n := nat_of_ascii c in
  (Nat.leb 32 n && Nat.ltb n 127)
  || (Nat.leb 161 n && negb (Nat.eqb n 173)).

(** One character inside [repr] of a str delimited by [quote]. *)
Definition repr_char (quote c : ascii) : string :=
  let n := nat_of_ascii c in
  if Ascii.eqb c quote || Ascii.eqb c backslash then String backslash (String c EmptyString)
  else if Nat.eqb n 9 then String backslash "t"
  else if Nat.eqb n 10 then String backslash "n"
  else if Nat.eqb n 13 then String backslash "r"
  else if printable c then String c EmptyString
  else String backslash
         (String "x" (String (hex_digit (Nat.div n 16))
                        (String (hex_digit (Nat.modulo n 16)) EmptyString))).

Fixpoint repr_chars (quote : ascii) (s : string) : string :=
  match s with
  | EmptyString => EmptyString
  | String c rest => repr_char quote c ++ repr_chars quote rest
  end.

(** [repr(s)] for a str: single quotes unless the text holds a single
    quote and no double quote. *)
Definition repr_str (s : string) : string :=
  let quote := if contains squote s && negb (contains dquote s) then dquote else squote in
  String quote (repr_chars quote s ++ String quote EmptyString).

(** [format(s, fill + "<" + str(width))] for a str [s], as the format
    mini-language reads it: a negative width shows up as a sign
    option, which a str refuses ([None] stands for that ValueError). *)
Definition format_ljust (s : string) (fill : string) (width : Z) : option string :=
  if width <? 0 then None
  else Some (s ++ replicate (Z.to_nat width - String.length s) fill).

End Text.

Import Text.

(** ** Values *)

Definition label : Type := string.

#[warnings="-register-all"]
Inductive value : Type :=
| VNone
| VBool (b : bool)
| VInt (n : Z)
| VStr (s : string)
| VList (items : list value)
| VDict (entries : list (label * value)).

Definition dict : Type := list (label * value).

Definition keys (d : dict) : list label := map fst d.
Definition values (d : dict) : list value := map snd d.
Definition items (d : dict) : list (label * value) := d.

(** [d.get(k)]: the value of the first entry labelled [k]. *)
Fixpoint dict_lookup (k : label) (d : dict) : option value :=
  match d with
  | [] => None
  | (k', v) :: rest => if String.eqb k' k then Some v else dict_lookup k rest
  end.

(** [d.get(k, default)]. *)
Definition dict_get (k : label) (default : value) (d : dict) : value :=
  match dict_lookup k d with
  | Some v => v
  | None => default
  end.

(** A dict holds each key once. *)
Definition wf_dict (d : dict) : Prop := NoDup (keys d).

(** [bool(v)]. *)
Definition truthy (v : value) : bool :=
  match v with
  | VNone => false
  | VBool b => b
  | VInt n => negb (n =? 0)
  | VStr s => negb (String.eqb s EmptyString)
  | VList l => match l with [] => false | _ :: _ => true end
  | VDict d => match d with [] => false | _ :: _ => true end
  end.

Definition isinstance_dict (v : value) : bool :=
  match v with VDict _ => true | _ => false end.

Definition isinstance_list (v : value) : bool :=
  match v with VList _ => true | _ => false end.

(** [repr(v)]. *)
Fixpoint repr (v : value) : string :=
  match v with
  | VNone => "None"
  | VBool true => "True"
  | VBool false => "False"
  | VInt n => str_of_int n
  | VStr s => repr_str s
  | VList l => "[" ++ join ", " (map repr l) ++ "]"
  | VDict d =>
      "{" ++ join ", " (map (fun kv => repr_str (fst kv) ++ ": " ++ repr (snd kv)) d) ++ "}"
  end.

(** [str(v)], which is also [format(v, "")]. *)
Definition str (v : value) : string :=
  match v with
  | VStr s => s
  | _ => repr v
  end.

(** ** Exceptions and outcomes

    The exceptions the helpers meet: a method a value lacks, an index
    or key that is absent, an operation a type does not support, a
    format spec a str refuses, and whatever a rendering library
    raises. *)
Inductive exn : Type :=
| AttributeError
| IndexError
| KeyError
| TypeError
| ValueError
| RendererError.

(** How a call ends. *)

Inductive outcome (A : Type) : Type :=
| Returns (a : A)
| Raises (e : exn).

Arguments Returns {A} a.
Arguments Raises {A} e.

(** ** The styled table object of the rich library: its title, its
    columns (header and style) and its rows of cell texts. *)

Record Table : Type := mkTable {
  table_title : value;
  table_columns : list (label * value);
  table_rows : list (list string)
}.

Definition new_table (title : value) : Table := mkTable title [] [].

Definition add_column (header : label) (style : value) (t : Table) : Table :=
  mkTable (table_title t) (table_columns t ++ [(header, style)])%list (table_rows t).

(** The column [add_row] makes up for a cell beyond the last column:
    no header, no style. *)
Definition blank_column : label * value := (EmptyString, VStr EmptyString).

(** A row filled up with empty cells to [n] cells. *)
Definition pad_cells (n : nat) (cells : list string) : list string :=
  (cells ++ repeat EmptyString (n - length cells))%list.

(** [table.add_row(cells)]: a row with more cells than the table has
    columns grows the table by header-less columns, whose cells in
    the earlier rows are empty; a row with fewer cells is filled up
    with empty cells. *)
Definition add_row (cells : list string) (t : Table) : Table :=
  let extra := (length cells - length (table_columns t))%nat in
  mkTable (table_title t)
    (table_columns t ++ repeat blank_column extra)%list
    (map (fun row => (row ++ repeat EmptyString extra)%list) (table_rows t)
       ++ [pad_cells (length (table_columns t)) cells])%list.

(** ** Output effects and the printing monad *)

Inductive effect : Type :=
| Println (text : string)        (* one [print] call: [text], then the line end *)
| ConsolePrint (t : Table).      (* [Console().print(t)] is called *)

Definition io (A : Type) : Type := (list effect * outcome A)%type.

Definition trace {A} (m : io A) : list effect := fst m.
Definition result {A} (m : io A) : outcome A := snd m.

Definition ret {A} (a : A) : io A := ([], Returns a).
Definition raise {A} (e : exn) : io A := ([], Raises e).

Definition bind {A B} (m : io A) (f : A -> io B) : io B :=
  match result m with
  | Returns a => ((trace m ++ trace (f a))%list, result (f a))
  | Raises e => (trace m, Raises e)
  end.

Declare Scope io_scope.
Delimit Scope io_scope with io.
Notation "x <- m ;; k" := (bind m (fun x => k))
  (at level 61, m at next level, right associativity) : io_scope.
Notation "m ;; k" := (bind m (fun _ => k))
  (at level 61, right associativity) : io_scope.
#[local] Open Scope io_scope.

(** A library call that may raise. *)
Definition call {A} (r : outcome A) : io A := ([], r).

(** [print] of some arguments: their texts joined by one space. *)
Definition print (args : list value) : io unit :=
  ([Println (join " " (map str args))], Returns tt).

(** [for x in xs: body(x)]. *)
Fixpoint for_each {A} (xs : list A) (body : A -> io unit) : io unit :=
  match xs with
  | [] => ret tt
  | x :: rest => body x ;; for_each rest body
  end.

(** [[f(x) for x in xs]]. *)
Fixpoint comprehension {A B} (f : A -> io B) (xs : list A) : io (list B) :=
  match xs with
  | [] => ret []
  | x :: rest => y <- f x ;; ys <- comprehension f rest ;; ret (y :: ys)
  end.

(** A loop that updates a local object. *)
Fixpoint for_fold {A S} (xs : list A) (body : S -> A -> io S) (s : S) : io S :=
  match xs with
  | [] => ret s
  | x :: rest => s' <- body s x ;; for_fold rest body s'
  end.

(** The text the [print] calls of a trace write, each with its line
    end.  What the styled console writes for a table is its own
    rendering and is no part of this text. *)
Fixpoint printed (tr : list effect) : string :=
  match tr with
  | [] => EmptyString
  | Println text :: rest => text ++ nl ++ printed rest
  | ConsolePrint _ :: rest => printed rest
  end.

(** ** Dynamic operations on values *)

(** [v[0]]. *)
Definition getitem0 (v : value) : io value :=
  match v with
  | VList (x :: _) => ret x
  | VList [] => raise IndexError
  | VStr (String c _) => ret (VStr (String c EmptyString))
  | VStr EmptyString => raise IndexError
  | VDict _ => raise KeyError
  | VNone | VBool _ | VInt _ => raise TypeError
  end.

(** [v.keys()], [v.values()], [v.items()], [v.get(k, default)]. *)
Definition keys_of (v : value) : io (list label) :=
  match v with VDict d => ret (keys d) | _ => raise AttributeError end.

Definition values_of (v : value) : io (list value) :=
  match v with VDict d => ret (values d) | _ => raise AttributeError end.

Definition items_of (v : value) : io (list (label * value)) :=
  match v with VDict d => ret (items d) | _ => raise AttributeError end.

Definition get_of (v : value) (k : label) (default : value) : io value :=
  match v with VDict d => ret (dict_get k default d) | _ => raise AttributeError end.

(** [a and b] as a condition: [b] is evaluated only when [a] holds. *)
Definition and_then (a : bool) (b : io bool) : io bool :=
  if a then b else ret false.

Fixpoint chars (s : string) : list value :=
  match s with
  | EmptyString => []
  | String c rest => VStr (String c EmptyString) :: chars rest
  end.

(** The elements [for x in v] goes through. *)
Definition iterate (v : value) : io (list value) :=
  match v with
  | VList l => ret l
  | VStr s => ret (chars s)
  | VDict d => ret (map VStr (keys d))
  | VNone | VBool _ | VInt _ => raise TypeError
  end.

(** The f-string field [{key:.<{key_width}}]. *)
Definition format_key (key : label) (key_width : Z) : io string :=
  match format_ljust key "." key_width with
  | Some s => ret s
  | None => raise ValueError
  end.

(** ** The helpers *)

(** Default arguments. *)
Definition default_width : Z := 50.
Definition default_key_width : Z := 20.
Definition default_table_format : string := "grid".
Definition default_style : value := VStr "white".

Section Helpers.

(** The plain-text tabular renderer of the tabulate library:
    [tabulate(rows, headers=headers, tablefmt=table_format)]. *)
Variable tabulate : list (list value) -> list label -> string -> outcome string.

(** The styled console of the rich library printing a table that has
    columns: it returns, or it raises (a style token it does not
    know, cell text it cannot read as markup, a title it cannot
    render). *)
Variable console : Table -> outcome unit.

(** [console.print(table)]: the table is handed to the console.  A
    table without columns is rendered as an empty line whatever its
    title and rows; any other table is the console's to accept or
    refuse. *)
Definition console_print (table : Table) : io unit :=
  ([ConsolePrint table],
   match table_columns table with
   | [] => Returns tt
   | _ :: _ => console table
   end).

Definition print_section (title content : value) (width : Z) : io unit :=
  print [VStr (nl ++ str_mul "=" width)] ;;
  print [VStr (" " ++ str title)] ;;
  print [VStr (str_mul "=" width)] ;;
  if truthy content then
    if isinstance_list content then
      content_items <- iterate content ;;
      for_each content_items (fun item => print [VStr "sss"; item])
    else
      print [content]
  else ret tt.

Definition print_dict (data title : value) (key_width : Z) : io unit :=
  (if truthy title then print_section title VNone default_width else print []) ;;
  entries <- items_of data ;;
  for_each entries (fun '(key, value) =>
    padded <- format_key key key_width ;;
    print [VStr (padded ++ " " ++ str value)]).

Definition print_table (data title : value) (table_format : string) : io unit :=
  (if truthy title then print_section title VNone default_width else print []) ;;
  if truthy data then
    first <- getitem0 data ;;
    headers <- keys_of first ;;
    data_items <- iterate data ;;
    rows <- comprehension values_of data_items ;;
    text <- call (tabulate rows headers table_format) ;;
    print [VStr text]
  else ret tt.

Definition print_results (sections : dict) : io unit :=
  for_each (items sections) (fun '(title, content) =>
    if isinstance_dict content then
      print_dict content (VStr title) default_key_width
    else
      table_like <-
        and_then (isinstance_list content)
          (and_then (truthy content)
             (first <- getitem0 content ;; ret (isinstance_dict first))) ;;
      if table_like then
        print_table content (VStr title) default_table_format
      else
        print_section (VStr title) content default_width).

Definition print_rich_table (data title columns : value) : io unit :=
  let table := new_table title in
  table <-
    (if truthy data then
       first <- getitem0 data ;;
       headers <- keys_of first ;;
       table <-
         for_fold headers (fun table header =>
           style <- (if truthy columns then get_of columns header default_style
                     else ret default_style) ;;
           ret (add_column header style table)) table ;;
       data_items <- iterate data ;;
       for_fold data_items (fun table row_data =>
         cells <- values_of row_data ;;
         ret (add_row (map str cells) table)) table
     else ret table) ;;
  console_print table.

End Helpers.

(** ** Reading the specification

    The definitions below follow the words of the specification; the
    theorems compare them with the helpers above. *)

(** The four lines of a section header: a blank line, a separator
    line, the title line, a separator line. *)
Definition header_lines (title : value) (width : Z) : list string :=
  [EmptyString; str_mul "=" width; " " ++ str title; str_mul "=" width].

(** One key-value line: the label, filler dots up to the key width,
    one space, the text of the value. *)
Definition entry_line (key_width : Z) (entry : label * value) : string :=
  fst entry ++ replicate (Z.to_nat key_width - String.length (fst entry)) "."
            ++ " " ++ str (snd entry).

(** The three shapes the dispatcher tells apart. *)
Inductive shape : Type := KeyValue | Tabular | Generic.

Definition shape_of (content : value) : shape :=
  match content with
  | VDict _ => KeyValue
  | VList (VDict _ :: _) => Tabular
  | _ => Generic
  end.

(** The style of a column: the entry of the style mapping, else the
    neutral default. *)
Definition column_style (columns : option dict) (header : label) : value :=
  match columns with
  | Some c =>
      match dict_lookup header c with
      | Some style => style
      | None => default_style
      end
  | None => default_style
  end.

(** An optional argument as the caller passes it. *)
Definition optional_dict (columns : option dict) : value :=
  match columns with
  | Some c => VDict c
  | None => VNone
  end.

(** All rows carry the keys of the first row, in its order. *)
Definition uniform (first : dict) (more : list dict) : Prop :=
  Forall (fun d => keys d = keys first) more.

(** The three [print] calls that write a section header. *)
Definition header_prints (title : value) (width : Z) : list effect :=
  [Println (nl ++ str_mul "=" width); Println (" " ++ str title); Println (str_mul "=" width)].

(** What stands at the top of a key-value listing or a table: the
    section header when a title is given, one blank line otherwise. *)
Definition heading_prints (title : value) : list effect :=
  if truthy title then header_prints title default_width else [Println EmptyString].

(** The dispatch the specification describes: a mapping goes to the
    key-value printer, a non-empty list that starts with a mapping to
    the plain table printer, anything else to the section printer. *)
Definition route (tabulate : list (list value) -> list label -> string -> outcome string)
    (title : label) (content : value) : io unit :=
  match shape_of content with
  | KeyValue => print_dict content (VStr title) default_key_width
  | Tabular => print_table tabulate content (VStr title) default_table_format
  | Generic => print_section (VStr title) content default_width
  end.

(** The cell of a row under a header. *)
Definition cells_by_header (headers : list label) (row : dict) : list (option value) :=
  map (fun header => dict_lookup header row) headers.

(** A run that writes nothing. *)
Definition silent {A} (m : io A) : Prop := trace m = [].

(** Effects of the plain [print] kind. *)
Definition is_println (e : effect) : bool :=
  match e with
  | Println _ => true
  | ConsolePrint _ => false
  end.

(** A run whose only effects are [print] calls. *)
Definition prints_only {A} (m : io A) : Prop := forallb is_println (trace m) = true.

(** A value that is no mapping. *)
Definition not_dict (v : value) : Prop := isinstance_dict v = false.

(** ** Facts about text *)

Module TextFacts.

Lemma append_nil_r (s : string) : s ++ EmptyString = s.
Proof. induction s as [|c s IH]; simpl; [reflexivity | now rewrite IH]. Qed.

Lemma append_assoc (a b c : string) : (a ++ b) ++ c = a ++ (b ++ c).
Proof. induction a as [|x a IH]; simpl; [reflexivity | now rewrite IH]. Qed.

Lemma length_append (a b : string) :
  String.length (a ++ b) = (String.length a + String.length b)%nat.
Proof. induction a as [|x a IH]; simpl; [reflexivity | now rewrite IH]. Qed.

Lemma length_replicate_char (n : nat) (c : ascii) :
  String.length (replicate n (String c EmptyString)) = n.
Proof. induction n as [|n IH]; simpl; [reflexivity | now rewrite IH]. Qed.

Lemma all_chars_replicate (n : nat) (c : ascii) :
  all_chars c (replicate n (String c EmptyString)) = true.
Proof.
  induction n as [|n IH]; simpl; [reflexivity|].
  now rewrite Ascii.eqb_refl, IH.
Qed.

Lemma prefix_append (p s : string) : String.prefix p (p ++ s) = true.
Proof.
  induction p as [|c p IH]; simpl.
  - now destruct s.
  - destruct (ascii_dec c c) as [_|Hne]; [exact IH | now elim Hne].
Qed.

(** A newline-free text followed by a line end is one line. *)
Lemma lines_line (s rest : string) :
  no_newline s -> lines (s ++ nl ++ rest) = s :: lines rest.
Proof.
  unfold no_newline.
  induction s as [|c s IH]; simpl; intros Hs.
  - reflexivity.
  - apply orb_false_iff in Hs. destruct Hs as [Hc Hs].
    specialize (IH Hs). simpl in IH.
    rewrite Hc, IH. reflexivity.
Qed.

Lemma lines_unlines_app (ls : list string) (rest : string) :
  Forall no_newline ls -> lines (unlines ls ++ rest) = (ls ++ lines rest)%list.
Proof.
  induction 1 as [|l ls Hl _ IH]; [reflexivity|].
  change (unlines (l :: ls)) with (l ++ nl ++ unlines ls).
  rewrite !append_assoc, (lines_line _ _ Hl), IH.
  reflexivity.
Qed.

Lemma lines_unlines (ls : list string) :
  Forall no_newline ls -> lines (unlines ls) = ls.
Proof.
  intros H. rewrite <- (append_nil_r (unlines ls)).
  rewrite (lines_unlines_app _ _ H). simpl. apply app_nil_r.
Qed.

End TextFacts.

Import TextFacts.

(** ** Facts about the printing monad *)

Lemma io_eta {A} (m : io A) : (trace m, result m) = m.
Proof. now destruct m. Qed.

Lemma bind_ret_l {A B} (a : A) (f : A -> io B) : bind (ret a) f = f a.
Proof. unfold bind; simpl. apply io_eta. Qed.

Lemma bind_ret_r {A} (m : io A) : bind m ret = m.
Proof.
  destruct m as [tr [a|e]]; unfold bind; simpl; [|reflexivity].
  now rewrite app_nil_r.
Qed.

Lemma bind_assoc {A B C} (m : io A) (f : A -> io B) (g : B -> io C) :
  bind (bind m f) g = bind m (fun a => bind (f a) g).
Proof.
  destruct m as [tr [a|e]]; unfold bind; simpl; [|reflexivity].
  destruct (f a) as [tr' [b|e]]; simpl; [|reflexivity].
  now rewrite app_assoc.
Qed.

Lemma bind_raise {A B} (e : exn) (f : A -> io B) : bind (raise e) f = raise e.
Proof. reflexivity. Qed.

Lemma bind_print {B} (args : list value) (k : unit -> io B) :
  bind (print args) k = (Println (join " " (map str args)) :: trace (k tt), result (k tt)).
Proof. reflexivity. Qed.

Lemma bind_emits {A B} (tr : list effect) (a : A) (k : A -> io B) :
  bind (tr, Returns a) k = ((tr ++ trace (k a))%list, result (k a)).
Proof. reflexivity. Qed.

Lemma printed_app (t1 t2 : list effect) :
  printed (t1 ++ t2)%list = printed t1 ++ printed t2.
Proof.
  induction t1 as [|e t1 IH]; simpl; [reflexivity|].
  destruct e; simpl; [|exact IH].
  now rewrite IH, !append_assoc.
Qed.

Lemma printed_prints (ls : list string) : printed (map Println ls) = unlines ls.
Proof. induction ls as [|l ls IH]; simpl; [reflexivity | now rewrite IH]. Qed.

(** A loop whose body prints one line and returns. *)
Lemma for_each_prints {A} (xs : list A) (body : A -> io unit) (line : A -> string) :
  (forall x, In x xs -> body x = ([Println (line x)], Returns tt)) ->
  for_each xs body = (map (fun x => Println (line x)) xs, Returns tt).
Proof.
  induction xs as [|x xs IH]; intros Hbody; simpl; [reflexivity|].
  rewrite (Hbody x (or_introl eq_refl)), bind_emits.
  rewrite IH by (intros y Hy; apply Hbody; now right).
  reflexivity.
Qed.

Lemma for_each_cons {A} (x : A) (xs : list A) (body : A -> io unit) :
  for_each (x :: xs) body = bind (body x) (fun _ => for_each xs body).
Proof. reflexivity. Qed.

Lemma comprehension_pure {A B} (f : A -> io B) (g : A -> B) (xs : list A) :
  (forall x, In x xs -> f x = ret (g x)) ->
  comprehension f xs = ret (map g xs).
Proof.
  induction xs as [|x xs IH]; intros Hf; simpl; [reflexivity|].
  rewrite (Hf x (or_introl eq_refl)), bind_ret_l.
  rewrite IH by (intros y Hy; apply Hf; now right).
  now rewrite bind_ret_l.
Qed.

Lemma for_fold_pure {A S} (body : S -> A -> io S) (g : S -> A -> S) (xs : list A) (s : S) :
  (forall s' x, In x xs -> body s' x = ret (g s' x)) ->
  for_fold xs body s = ret (fold_left g xs s).
Proof.
  revert s. induction xs as [|x xs IH]; intros s Hb; simpl; [reflexivity|].
  rewrite (Hb s x (or_introl eq_refl)), bind_ret_l.
  apply IH. intros s' y Hy. apply Hb. now right.
Qed.

(** ** The section header printer *)

Lemma printed_header_prints (title : value) (width : Z) :
  printed (header_prints title width) = unlines (header_lines title width).
Proof. reflexivity. Qed.

Lemma print_section_unfold (title content : value) (width : Z) :
  print_section title content width =
    bind (header_prints title width, Returns tt) (fun _ =>
      if truthy content then
        if isinstance_list content then
          bind (iterate content) (fun content_items =>
            for_each content_items (fun item => print [VStr "sss"; item]))
        else print [content]
      else ret tt).
Proof. reflexivity. Qed.

Lemma print_section_skips (title content : value) (width : Z) :
  truthy content = false ->
  print_section title content width = (header_prints title width, Returns tt).
Proof. intros H. rewrite print_section_unfold, H. reflexivity. Qed.

Lemma print_section_no_content (title : value) (width : Z) :
  print_section title VNone width = (header_prints title width, Returns tt).
Proof. now apply print_section_skips. Qed.

Lemma print_section_list (title : value) (l : list value) (width : Z) :
  print_section title (VList l) width =
    ((header_prints title width ++ map (fun item => Println ("sss " ++ str item)) l)%list,
     Returns tt).
Proof.
  rewrite print_section_unfold. destruct l as [|x l]; [reflexivity|].
  cbn [truthy isinstance_list iterate]. rewrite bind_ret_l.
  rewrite (for_each_prints _ _ (fun item => "sss " ++ str item)) by reflexivity.
  reflexivity.
Qed.

Lemma print_section_plain (title content : value) (width : Z) :
  truthy content = true -> isinstance_list content = false ->
  print_section title content width =
    ((header_prints title width ++ [Println (str content)])%list, Returns tt).
Proof. intros Ht Hl. rewrite print_section_unfold, Ht, Hl. reflexivity. Qed.

(** C5. Whatever the title, the content and the width, the text
    written by [print_section] starts with four lines: a blank line, a
    separator line, the title line and a second separator line; a
    separator line is made of the character [=] only and has exactly
    [width] characters (none for a width below zero).  What follows is
    the output of the later [print] calls. *)
Theorem print_section_header (title content : value) (width : Z) :
  let out := trace (print_section title content width) in
  let separator := str_mul "=" width in
  printed out =
    unlines [EmptyString; separator; " " ++ str title; separator] ++ printed (skipn 3 out)
  /\ Z.of_nat (String.length separator) = Z.max 0 width
  /\ all_chars "=" separator = true.
Proof.
  cbv zeta. split; [|split].
  - rewrite print_section_unfold, bind_emits. cbn [trace fst].
    change (skipn 3 (header_prints title width ++ ?t)%list) with t.
    rewrite printed_app, printed_header_prints. reflexivity.
  - unfold str_mul. rewrite length_replicate_char. lia.
  - apply all_chars_replicate.
Qed.

(** C9. An empty text and an empty list as content give exactly the
    run (output and outcome) of a call without content, which writes
    the header alone; more generally any content counts only when it
    is truthy. *)
Theorem print_section_falsy_content (title : value) (width : Z) :
  print_section title (VStr EmptyString) width = print_section title VNone width
  /\ print_section title (VList []) width = print_section title VNone width
  /\ print_section title VNone width = (header_prints title width, Returns tt)
  /\ forall content,
       print_section title content width =
         if truthy content then print_section title content width
         else print_section title VNone width.
Proof.
  repeat split.
  intros content. destruct (truthy content) eqn:H; [reflexivity|].
  now rewrite (print_section_skips _ _ _ H), print_section_no_content.
Qed.

(** C7. On the docstring's own example the items of a list are not
    written as they are: each line is the item's text behind the
    marker [sss] and a space. *)
Theorem print_section_items_example :
  let out := printed (trace (print_section (VStr "Data")
                              (VList [VStr "Item 1"; VStr "Item 2"; VStr "Item 3"])
                              default_width)) in
  skipn 4 (lines out) = ["sss Item 1"; "sss Item 2"; "sss Item 3"]
  /\ skipn 4 (lines out) <> ["Item 1"; "Item 2"; "Item 3"].
Proof. cbv zeta. split; [reflexivity | discriminate]. Qed.

(** ** The key-value printer *)

Lemma heading_run (title : value) :
  (if truthy title then print_section title VNone default_width else print []) =
    (heading_prints title, Returns tt).
Proof.
  unfold heading_prints. destruct (truthy title).
  - apply print_section_no_content.
  - reflexivity.
Qed.

Lemma print_dict_unfold (data title : value) (key_width : Z) :
  print_dict data title key_width =
    bind (heading_prints title, Returns tt) (fun _ =>
      bind (items_of data) (fun entries =>
        for_each entries (fun '(key, value) =>
          bind (format_key key key_width) (fun padded =>
            print [VStr (padded ++ " " ++ str value)])))).
Proof. unfold print_dict. now rewrite heading_run. Qed.

Lemma format_key_nonneg (key : label) (key_width : Z) :
  0 <= key_width ->
  format_key key key_width =
    ret (key ++ replicate (Z.to_nat key_width - String.length key) ".").
Proof.
  intros H. unfold format_key, format_ljust.
  destruct (Z.ltb_spec key_width 0); [lia | reflexivity].
Qed.

Lemma print_dict_run (M : dict) (title : value) (key_width : Z) :
  0 <= key_width ->
  print_dict (VDict M) title key_width =
    ((heading_prints title ++ map (fun e => Println (entry_line key_width e)) M)%list,
     Returns tt).
Proof.
  intros Hw. rewrite print_dict_unfold, bind_emits.
  cbn [items_of items]. rewrite bind_ret_l.
  rewrite (for_each_prints _ _ (entry_line key_width)).
  - reflexivity.
  - intros [key v] _. rewrite (format_key_nonneg _ _ Hw), bind_ret_l.
    unfold entry_line, print. cbn [map join str fst snd].
    now rewrite append_assoc.
Qed.

(** The label part of a key-value line: the label, then dots only, up
    to the key width. *)
Lemma entry_line_shape (key_width : Z) (e : label * value) :
  let dots := replicate (Z.to_nat key_width - String.length (fst e)) "." in
  entry_line key_width e = (fst e ++ dots) ++ " " ++ str (snd e)
  /\ all_chars "." dots = true
  /\ String.length (fst e ++ dots) = Nat.max (String.length (fst e)) (Z.to_nat key_width)
  /\ startswith (fst e) (entry_line key_width e) = true.
Proof.
  cbv zeta. repeat split.
  - unfold entry_line. now rewrite append_assoc.
  - apply all_chars_replicate.
  - rewrite length_append, length_replicate_char. lia.
  - unfold entry_line, startswith. apply prefix_append.
Qed.

(** C3, as the code has it.  For a mapping [M] and a key width that is
    not negative, [print_dict] writes its heading (the section header
    when a title is given, otherwise one blank line in its place) and
    then one line per entry of [M], in insertion order: the label,
    filler dots up to the key width, one space and the text of the
    value.  When no such line holds a line break, these are exactly
    the lines of the text written after the heading. *)
Theorem print_dict_lines (M : dict) (title : value) (key_width : Z) :
  0 <= key_width ->
  let body := map (fun e => Println (entry_line key_width e)) M in
  print_dict (VDict M) title key_width = ((heading_prints title ++ body)%list, Returns tt)
  /\ length body = length M
  /\ (forall e, In e M ->
        let dots := replicate (Z.to_nat key_width - String.length (fst e)) "." in
        entry_line key_width e = (fst e ++ dots) ++ " " ++ str (snd e)
        /\ all_chars "." dots = true
        /\ String.length (fst e ++ dots) = Nat.max (String.length (fst e)) (Z.to_nat key_width)
        /\ startswith (fst e) (entry_line key_width e) = true)
  /\ (Forall (fun e => no_newline (entry_line key_width e)) M ->
        lines (printed body) = map (entry_line key_width) M).
Proof.
  intros Hw body. split; [|split; [|split]].
  - now apply print_dict_run.
  - apply length_map.
  - intros e _. apply entry_line_shape.
  - intros Hnl. subst body.
    rewrite <- (map_map (entry_line key_width) Println), printed_prints.
    apply lines_unlines. now apply Forall_map.
Qed.

Lemma print_dict_lines_witness :
  lines (printed (skipn 1 (trace (print_dict
     (VDict [("Name", VStr "Alice"); ("Age", VInt 30)]) VNone 20)))) =
  ["Name................ Alice"; "Age................. 30"].
Proof.
  destruct (print_dict_lines [("Name", VStr "Alice"); ("Age", VInt 30)] VNone 20
              ltac:(lia)) as (Hrun & _ & _ & Hlines).
  rewrite Hrun. apply Hlines. repeat constructor.
Defined.

(** C3, as stated, fails without a title: the text written for a
    one-entry mapping has two lines, and the first, being blank, does
    not start with the label. *)
Lemma print_dict_untitled_extra_line :
  let M := [("a", VInt 1)] in
  let out := lines (printed (trace (print_dict (VDict M) VNone default_key_width))) in
  out = [EmptyString; "a................... 1"]
  /\ length out <> length M
  /\ ~ Forall2 (fun e l => startswith (fst e) l = true) M out.
Proof.
  cbv zeta. split; [reflexivity|]. split; [discriminate|].
  intros H. vm_compute in H. inversion H as [|? ? ? ? Hhd Htl]; subst.
  inversion Htl.
Qed.

(** C8, as the code has it.  The call of the example writes three
    lines: a blank line, then the line of [Name] and the line of
    [Age], each with filler dots up to column 20, a space and the
    value. *)
Theorem print_dict_example :
  let run := print_dict (VDict [("Name", VStr "Alice"); ("Age", VInt 30)])
               VNone default_key_width in
  lines (printed (trace run)) =
    [EmptyString;
     "Name" ++ replicate 16 "." ++ " " ++ "Alice";
     "Age" ++ replicate 17 "." ++ " " ++ "30"]
  /\ result run = Returns tt.
Proof. cbv zeta. split; reflexivity. Qed.

(** C8, as stated, fails: the output is not two lines of which the
    first begins with [Name]. *)
Lemma print_dict_example_not_two_lines :
  ~ exists l1 l2,
      lines (printed (trace (print_dict (VDict [("Name", VStr "Alice"); ("Age", VInt 30)])
                              VNone default_key_width))) = [l1; l2]
      /\ startswith "Name" l1 = true
      /\ startswith "Age" l2 = true.
Proof. intros (l1 & l2 & H & _). vm_compute in H. discriminate. Qed.

(** ** The plain table printer *)

Lemma print_table_unfold tabulate (data title : value) (table_format : string) :
  print_table tabulate data title table_format =
    bind (heading_prints title, Returns tt) (fun _ =>
      if truthy data then
        bind (getitem0 data) (fun first =>
        bind (keys_of first) (fun headers =>
        bind (iterate data) (fun data_items =>
        bind (comprehension values_of data_items) (fun rows =>
        bind (call (tabulate rows headers table_format)) (fun text =>
        print [VStr text])))))
      else ret tt).
Proof. unfold print_table. now rewrite heading_run. Qed.

Lemma values_of_rows (R : list dict) :
  comprehension values_of (map VDict R) = ret (map values R).
Proof.
  rewrite (comprehension_pure _ (fun v => match v with VDict d => values d | _ => [] end)).
  - now rewrite map_map.
  - intros v Hv. apply in_map_iff in Hv. destruct Hv as (d & <- & _). reflexivity.
Qed.

Lemma print_table_rows tabulate (first : dict) (more : list dict)
    (title : value) (table_format : string) :
  print_table tabulate (VList (map VDict (first :: more))) title table_format =
    bind (heading_prints title, Returns tt) (fun _ =>
    bind (call (tabulate (map values (first :: more)) (keys first) table_format)) (fun text =>
    print [VStr text])).
Proof.
  rewrite print_table_unfold.
  apply (f_equal (fun k => bind (heading_prints title, Returns tt) (fun _ : unit => k))).
  cbn [map truthy getitem0].
  repeat (rewrite bind_ret_l; cbn [keys_of iterate]).
  change (VDict first :: map VDict more) with (map VDict (first :: more)).
  now rewrite values_of_rows, bind_ret_l.
Qed.

(** In a dict that holds each key once, looking the keys up in order
    gives the values in order. *)
Lemma lookup_keys_values (d : dict) :
  wf_dict d -> cells_by_header (keys d) d = map Some (values d).
Proof.
  unfold wf_dict, cells_by_header, keys, values.
  induction d as [|[k v] d IH]; intros Hnd; [reflexivity|].
  inversion Hnd as [|? ? Hk Hd]; subst. cbn [map fst snd dict_lookup].
  rewrite String.eqb_refl. f_equal.
  rewrite <- (IH Hd). apply map_ext_in. intros k' Hk'.
  destruct (String.eqb_spec k k') as [->|_]; [contradiction | reflexivity].
Qed.

(** C2. For a non-empty sequence of rows that all carry the keys of
    the first row in its order (each key once), [print_table] hands
    the tabular renderer the keys of the first row, in order, as
    headers, and one list of cells per row in which the cell under a
    header is the row's value for that key; it then prints the text
    the renderer returns. *)
Theorem print_table_headers_rows tabulate (first : dict) (more : list dict)
    (title : value) (table_format : string) :
  wf_dict first -> uniform first more ->
  let headers := keys first in
  let rows := map values (first :: more) in
  print_table tabulate (VList (map VDict (first :: more))) title table_format =
    (_ <- (heading_prints title, Returns tt) ;;
     text <- call (tabulate rows headers table_format) ;;
     print [VStr text])
  /\ Forall2 (fun row cells => cells_by_header headers row = map Some cells)
       (first :: more) rows.
Proof.
  intros Hwf Hu. cbv zeta. split; [apply print_table_rows|].
  assert (Hall : Forall (fun d => keys d = keys first) (first :: more))
    by (constructor; [reflexivity | exact Hu]).
  clear Hu. induction Hall as [|d ds Hd _ IH]; cbn [map]; constructor; [|exact IH].
  rewrite <- Hd. apply lookup_keys_values. unfold wf_dict. now rewrite Hd.
Qed.

Lemma print_table_headers_rows_witness :
  let students := [[("Name", VStr "Alice"); ("Age", VInt 30)];
                   [("Name", VStr "Bob"); ("Age", VInt 25)]] in
  let renderer := fun (rows : list (list value)) (headers : list label) (_ : string) =>
                    Returns (unlines (join " " headers :: map (fun r => join " " (map str r)) rows)) in
  lines (printed (trace (print_table renderer (VList (map VDict students)) VNone "plain"))) =
    [EmptyString; "Name Age"; "Alice 30"; "Bob 25"; EmptyString].
Proof.
  cbv zeta.
  destruct (print_table_headers_rows
              (fun rows headers _ =>
                 Returns (unlines (join " " headers :: map (fun r => join " " (map str r)) rows)))
              [("Name", VStr "Alice"); ("Age", VInt 30)]
              [[("Name", VStr "Bob"); ("Age", VInt 25)]]
              VNone "plain") as [Hrun _].
  - unfold wf_dict. cbn. repeat constructor; cbn; intuition discriminate.
  - repeat constructor.
  - cbn [map] in *. rewrite Hrun. reflexivity.
Defined.

(** ** Headings without a title *)

Lemma print_dict_body (data : value) (key_width : Z) :
  exists body outcome,
    (forall title,
       print_dict data title key_width = ((heading_prints title ++ body)%list, outcome))
    /\ Forall (fun e => e <> Println EmptyString) body.
Proof.
  set (k := bind (items_of data) (fun entries =>
              for_each entries (fun '(key, value) =>
                bind (format_key key key_width) (fun padded =>
                  print [VStr (padded ++ " " ++ str value)])))).
  exists (trace k), (result k). split.
  - intros title. rewrite print_dict_unfold. reflexivity.
  - subst k. destruct data as [| | | | |M]; try (constructor; fail).
    cbn [items_of items]. rewrite bind_ret_l.
    destruct (Z.ltb_spec key_width 0) as [Hneg|Hpos].
    + destruct M as [|[key v] M]; [constructor|].
      cbn [for_each]. unfold format_key, format_ljust.
      destruct (Z.ltb_spec key_width 0); [constructor | lia].
    + rewrite (for_each_prints _ _ (entry_line key_width)).
      * cbn [trace fst]. apply Forall_map, Forall_forall. intros e _.
        unfold entry_line. intros Heq. injection Heq as Heq.
        apply (f_equal String.length) in Heq.
        rewrite !length_append in Heq. cbn in Heq. lia.
      * intros [key v] _. rewrite (format_key_nonneg _ _ Hpos), bind_ret_l.
        unfold entry_line, print. cbn [map join str fst snd].
        now rewrite append_assoc.
Qed.

(** C10. Without a title, [print_dict] and [print_table] write one
    blank line where the section header would stand: their output is
    that blank line followed by the same body, with the same outcome,
    that follows the header when a title is given.  In the body of
    [print_dict] no further blank [print] occurs. *)
Theorem untitled_blank_line tabulate (data : value) (key_width : Z) (table_format : string) :
  heading_prints VNone = [Println EmptyString]
  /\ (exists body outcome,
        print_dict data VNone key_width = (Println EmptyString :: body, outcome)
        /\ (forall title,
              print_dict data title key_width = ((heading_prints title ++ body)%list, outcome))
        /\ Forall (fun e => e <> Println EmptyString) body)
  /\ (exists body outcome,
        print_table tabulate data VNone table_format = (Println EmptyString :: body, outcome)
        /\ (forall title,
              print_table tabulate data title table_format =
                ((heading_prints title ++ body)%list, outcome))).
Proof.
  split; [reflexivity|]. split.
  - destruct (print_dict_body data key_width) as (body & outcome & Hrun & Hbody).
    exists body, outcome. split; [apply (Hrun VNone)|]. now split.
  - set (k := if truthy data then
                bind (getitem0 data) (fun first =>
                bind (keys_of first) (fun headers =>
                bind (iterate data) (fun data_items =>
                bind (comprehension values_of data_items) (fun rows =>
                bind (call (tabulate rows headers table_format)) (fun text =>
                print [VStr text])))))
              else ret tt).
    exists (trace k), (result k).
    split; [|intros title]; rewrite print_table_unfold; reflexivity.
Qed.

(** ** The styled table printer *)

Lemma style_run (columns : option dict) (header : label) :
  (if truthy (optional_dict columns)
   then get_of (optional_dict columns) header default_style
   else ret default_style) = ret (column_style columns header).
Proof.
  destruct columns as [[|entry c]|]; reflexivity.
Qed.

Lemma add_columns_run (columns : option dict) (headers : list label) (t : Table) :
  for_fold headers (fun table header =>
      bind (if truthy (optional_dict columns)
            then get_of (optional_dict columns) header default_style
            else ret default_style) (fun style =>
      ret (add_column header style table))) t =
    ret (mkTable (table_title t)
           (table_columns t ++ map (fun h => (h, column_style columns h)) headers)%list
           (table_rows t)).
Proof.
  revert t. induction headers as [|h hs IH]; intros t; cbn [for_fold map].
  - rewrite app_nil_r. now destruct t.
  - rewrite style_run, !bind_ret_l, IH. unfold add_column; cbn.
    now rewrite <- app_assoc.
Qed.

(** A row that does not exceed the columns leaves them as they are. *)
Lemma add_row_fits (cells : list string) (t : Table) :
  (length cells <= length (table_columns t))%nat ->
  add_row cells t =
    mkTable (table_title t) (table_columns t)
      (table_rows t ++ [pad_cells (length (table_columns t)) cells])%list.
Proof.
  intros Hle. unfold add_row. cbv zeta.
  replace (length cells - length (table_columns t))%nat with O by lia.
  cbn [repeat]. rewrite app_nil_r. f_equal. f_equal.
  rewrite <- (map_id (table_rows t)) at 2.
  apply map_ext. intros row. apply app_nil_r.
Qed.

Lemma add_rows_run (R : list dict) (t : Table) :
  Forall (fun row => (length row <= length (table_columns t))%nat) R ->
  for_fold (map VDict R) (fun table row_data =>
      bind (values_of row_data) (fun cells =>
      ret (add_row (map str cells) table))) t =
    ret (mkTable (table_title t) (table_columns t)
           (table_rows t
              ++ map (fun row => pad_cells (length (table_columns t)) (map str (values row))) R)%list).
Proof.
  revert t. induction R as [|d R IH]; intros t HR; cbn [for_fold map].
  - rewrite app_nil_r. now destruct t.
  - inversion HR as [|? ? Hd HR']; subst.
    cbn [values_of]. rewrite !bind_ret_l.
    rewrite add_row_fits by (unfold values; now rewrite !length_map).
    rewrite IH by exact HR'. cbn [table_title table_columns table_rows].
    now rewrite <- app_assoc.
Qed.

Lemma print_rich_table_unfold console (data title columns : value) :
  print_rich_table console data title columns =
    bind (if truthy data then
            bind (getitem0 data) (fun first =>
            bind (keys_of first) (fun headers =>
            bind (for_fold headers (fun table header =>
                    bind (if truthy columns then get_of columns header default_style
                          else ret default_style) (fun style =>
                    ret (add_column header style table))) (new_table title)) (fun table =>
            bind (iterate data) (fun data_items =>
            for_fold data_items (fun table row_data =>
              bind (values_of row_data) (fun cells =>
              ret (add_row (map str cells) table))) table))))
          else ret (new_table title))
      (console_print console).
Proof. reflexivity. Qed.

(** C6, as the code has it.  For a non-empty sequence of rows none of
    which has more entries than the first, and a style mapping that
    is absent or a mapping, [print_rich_table] builds without
    failing, and hands to the console, one table: it has the given
    title, one column per key of the first row in that row's order,
    each with the style the mapping holds for its name and the neutral
    style [white] when the name is missing or no mapping is given, and
    one row per input row holding the texts of that row's values
    (filled up with empty cells when the row is shorter).  The outcome
    of the call is the console's. *)
Theorem print_rich_table_columns console (first : dict) (more : list dict)
    (title : value) (columns : option dict) :
  Forall (fun row => (length row <= length first)%nat) more ->
  print_rich_table console (VList (map VDict (first :: more))) title (optional_dict columns) =
    console_print console
      (mkTable title
         (map (fun header => (header, column_style columns header)) (keys first))
         (map (fun row => pad_cells (length first) (map str (values row))) (first :: more)))
  /\ column_style None = (fun _ => VStr "white")
  /\ (forall c header,
        column_style (Some c) header =
          match dict_lookup header c with
          | Some style => style
          | None => VStr "white"
          end).
Proof.
  intros Hmore. split; [|split; reflexivity].
  rewrite print_rich_table_unfold.
  cbn [map truthy getitem0]. rewrite bind_ret_l. cbn [keys_of]. rewrite bind_ret_l.
  rewrite add_columns_run, bind_ret_l. cbn [iterate]. rewrite bind_ret_l.
  change (VDict first :: map VDict more) with (map VDict (first :: more)).
  cbn [new_table table_title table_columns table_rows app].
  assert (Hlen : length (map (fun h => (h, column_style columns h)) (keys first)) = length first)
    by (unfold keys; now rewrite !length_map).
  rewrite add_rows_run.
  - cbn [table_title table_columns table_rows app]. rewrite Hlen, bind_ret_l. reflexivity.
  - cbn [table_columns]. rewrite Hlen. constructor; [lia | exact Hmore].
Qed.

Lemma print_rich_table_columns_witness :
  print_rich_table (fun _ => Returns tt)
    (VList [VDict [("Name", VStr "Alice"); ("Age", VInt 30)];
            VDict [("Name", VStr "Bob"); ("Age", VInt 25)]])
    (VStr "Students")
    (VDict [("Name", VStr "cyan"); ("Score", VStr "green")]) =
  ([ConsolePrint
      (mkTable (VStr "Students")
         [("Name", VStr "cyan"); ("Age", VStr "white")]
         [["Alice"; "30"]; ["Bob"; "25"]])],
   Returns tt).
Proof.
  destruct (print_rich_table_columns (fun _ => Returns tt)
              [("Name", VStr "Alice"); ("Age", VInt 30)]
              [[("Name", VStr "Bob"); ("Age", VInt 25)]]
              (VStr "Students")
              (Some [("Name", VStr "cyan"); ("Score", VStr "green")])) as [Hrun _].
  - repeat constructor.
  - cbn [map optional_dict] in Hrun. rewrite Hrun. reflexivity.
Defined.

(** C6, as stated, fails when a later row has more entries than the
    first: the table handed to the console then has a second,
    header-less column besides the one for the first row's only
    key. *)
Lemma print_rich_table_longer_row :
  let first := [("a", VInt 1)] in
  let run := print_rich_table (fun _ => Returns tt)
               (VList [VDict first; VDict [("a", VInt 2); ("b", VInt 3)]]) VNone VNone in
  run = ([ConsolePrint
            (mkTable VNone [("a", VStr "white"); blank_column] [["1"; EmptyString]; ["2"; "3"]])],
         Returns tt)
  /\ forall t, trace run = [ConsolePrint t] ->
       length (table_columns t) <> length (keys first)
       /\ map fst (table_columns t) <> keys first.
Proof.
  cbv zeta. split; [reflexivity|].
  intros t Ht. injection Ht as <-. split; discriminate.
Qed.

(** C4, as the code has it.  For an empty row sequence neither
    printer fails and neither writes a row: [print_table] writes its
    heading and nothing else (the section header when a title is
    given, otherwise the one blank line that stands in its place),
    without calling the renderer, and [print_rich_table] hands the
    console a table that has the title, no column and no row. *)
Theorem empty_rows_no_output tabulate console (title columns : value) (table_format : string) :
  print_table tabulate (VList []) title table_format = (heading_prints title, Returns tt)
  /\ print_rich_table console (VList []) title columns =
       ([ConsolePrint (mkTable title [] [])], Returns tt).
Proof.
  split.
  - rewrite print_table_unfold. cbn [truthy]. rewrite bind_emits.
    cbn [trace result ret fst snd]. now rewrite app_nil_r.
  - reflexivity.
Qed.

(** C4, as stated, fails without a title: there is no header then,
    yet [print_table] on the empty list writes one line, a blank
    one. *)
Lemma print_table_empty_untitled :
  let run := print_table (fun _ _ _ => Returns "table") (VList []) VNone "grid" in
  run = ([Println EmptyString], Returns tt)
  /\ printed (trace run) = nl
  /\ trace run <> []
  /\ forall title width, trace run <> header_prints title width.
Proof.
  cbv zeta. repeat split; try reflexivity; try discriminate.
Qed.

(** ** The dispatcher *)

Lemma dispatch_route tabulate (title : label) (content : value) :
  (if isinstance_dict content then
     print_dict content (VStr title) default_key_width
   else
     bind (and_then (isinstance_list content)
             (and_then (truthy content)
                (bind (getitem0 content) (fun first => ret (isinstance_dict first)))))
       (fun table_like =>
          if table_like then print_table tabulate content (VStr title) default_table_format
          else print_section (VStr title) content default_width)) =
    route tabulate title content.
Proof.
  unfold route.
  destruct content as [| | | |l|d]; try reflexivity.
  destruct l as [|x l]; [reflexivity|].
  cbn [isinstance_dict isinstance_list truthy and_then getitem0].
  rewrite !bind_ret_l. now destruct x.
Qed.

(** C1. [print_results] goes through the named values in the order
    supplied, and handles each by its shape: a mapping by
    [print_dict], otherwise a non-empty list whose first element is a
    mapping by [print_table], otherwise (an empty list included) by
    [print_section]; a later value is handled once the earlier ones
    have returned. *)
Theorem print_results_routes tabulate :
  print_results tabulate [] = ret tt
  /\ (forall title content rest,
        print_results tabulate ((title, content) :: rest) =
          (route tabulate title content ;; print_results tabulate rest))
  /\ (forall d, shape_of (VDict d) = KeyValue)
  /\ (forall first l,
        shape_of (VList (first :: l)) = if isinstance_dict first then Tabular else Generic)
  /\ shape_of (VList []) = Generic
  /\ shape_of VNone = Generic
  /\ (forall b, shape_of (VBool b) = Generic)
  /\ (forall n, shape_of (VInt n) = Generic)
  /\ (forall s, shape_of (VStr s) = Generic).
Proof.
  split; [reflexivity|]. split; [|repeat split].
  - intros title content rest. unfold print_results, items.
    rewrite for_each_cons, dispatch_route. reflexivity.
  - intros first l. now destruct first.
Qed.

(** The call of the docstring of [print_results]: the text goes to
    the section printer, the list of texts too (its first element is
    no mapping), the mapping to the key-value printer. *)
Example print_results_docstring tabulate :
  let separator := replicate 50 "=" in
  lines (printed (trace (print_results tabulate
     [("Summary", VStr "Completed successfully");
      ("Details", VList [VStr "Item 1"; VStr "Item 2"]);
      ("Stats", VDict [("Total", VInt 100); ("Success", VInt 95)])]))) =
    [EmptyString; separator; " Summary"; separator; "Completed successfully";
     EmptyString; separator; " Details"; separator; "sss Item 1"; "sss Item 2";
     EmptyString; separator; " Stats"; separator;
     "Total............... 100"; "Success............. 95"].
Proof. reflexivity. Qed.

(** A list of mappings goes to the table printer, whose text is the
    renderer's. *)
Example print_results_table :
  let renderer := fun (rows : list (list value)) (headers : list label) (fmt : string) =>
                    Returns (fmt ++ ":" ++ join "," headers) in
  trace (print_results renderer [("T", VList [VDict [("Name", VStr "Alice"); ("Age", VInt 30)]])]) =
    (header_prints (VStr "T") default_width ++ [Println "grid:Name,Age"])%list.
Proof. reflexivity. Qed.

(** A row that is no mapping, behind a first row that is one, passes
    the dispatcher and makes the table printer raise after the header
    has been written. *)
Example print_results_bad_row tabulate :
  print_results tabulate [("T", VList [VDict [("a", VInt 1)]; VInt 5])] =
    (header_prints (VStr "T") default_width, Raises AttributeError).
Proof. reflexivity. Qed.

(** A negative key width is refused when the first entry is
    formatted. *)
Example print_dict_negative_width :
  print_dict (VDict [("a", VInt 1)]) VNone (-5) = ([Println EmptyString], Raises ValueError).
Proof. reflexivity. Qed.

(** ** Runs that write nothing, runs that only print *)

Lemma bind_returns {A B} (m : io A) (f : A -> io B) (a : A) :
  result m = Returns a -> bind m f = ((trace m ++ trace (f a))%list, result (f a)).
Proof. intros H. unfold bind. now rewrite H. Qed.

Lemma bind_raises {A B} (m : io A) (f : A -> io B) (e : exn) :
  result m = Raises e -> bind m f = (trace m, Raises e).
Proof. intros H. unfold bind. now rewrite H. Qed.

Lemma silent_bind {A B} (m : io A) (f : A -> io B) :
  silent m -> (forall a, silent (f a)) -> silent (bind m f).
Proof.
  unfold silent. intros Hm Hf. destruct (result m) as [a|e] eqn:Hr.
  - rewrite (bind_returns _ _ _ Hr). cbn [trace fst]. now rewrite Hm, Hf.
  - now rewrite (bind_raises _ _ _ Hr).
Qed.

Lemma silent_for_fold {A S} (xs : list A) (body : S -> A -> io S) (s : S) :
  (forall s' x, silent (body s' x)) -> silent (for_fold xs body s).
Proof.
  intros Hb. revert s. induction xs as [|x xs IH]; intros s; cbn [for_fold].
  - reflexivity.
  - apply silent_bind; [apply Hb | exact IH].
Qed.

Lemma silent_comprehension {A B} (f : A -> io B) (xs : list A) :
  (forall x, silent (f x)) -> silent (comprehension f xs).
Proof.
  intros Hf. induction xs as [|x xs IH]; cbn [comprehension]; [reflexivity|].
  apply silent_bind; [apply Hf|]. intros y.
  apply silent_bind; [exact IH | reflexivity].
Qed.

Lemma silent_getitem0 (v : value) : silent (getitem0 v).
Proof. destruct v as [| | |[|c s]|[|x l]|d]; reflexivity. Qed.

Lemma silent_keys_of (v : value) : silent (keys_of v).
Proof. now destruct v. Qed.

Lemma silent_values_of (v : value) : silent (values_of v).
Proof. now destruct v. Qed.

Lemma silent_items_of (v : value) : silent (items_of v).
Proof. now destruct v. Qed.

Lemma silent_get_of (v : value) (k : label) (default : value) : silent (get_of v k default).
Proof. now destruct v. Qed.

Lemma silent_iterate (v : value) : silent (iterate v).
Proof. now destruct v. Qed.

Lemma silent_format_key (key : label) (key_width : Z) : silent (format_key key key_width).
Proof. unfold format_key. now destruct (format_ljust key "." key_width). Qed.

Lemma silent_and_then (a : bool) (b : io bool) : silent b -> silent (and_then a b).
Proof. now destruct a. Qed.

Lemma prints_only_silent {A} (m : io A) : silent m -> prints_only m.
Proof. unfold silent, prints_only. now intros ->. Qed.

Lemma prints_only_bind {A B} (m : io A) (f : A -> io B) :
  prints_only m -> (forall a, prints_only (f a)) -> prints_only (bind m f).
Proof.
  unfold prints_only. intros Hm Hf. destruct (result m) as [a|e] eqn:Hr.
  - rewrite (bind_returns _ _ _ Hr). cbn [trace fst].
    now rewrite forallb_app, Hm, Hf.
  - now rewrite (bind_raises _ _ _ Hr).
Qed.

Lemma prints_only_for_each {A} (xs : list A) (body : A -> io unit) :
  (forall x, prints_only (body x)) -> prints_only (for_each xs body).
Proof.
  intros Hb. induction xs as [|x xs IH]; cbn [for_each]; [reflexivity|].
  apply prints_only_bind; [apply Hb | intros _; exact IH].
Qed.

Lemma prints_only_print (args : list value) : prints_only (print args).
Proof. reflexivity. Qed.

Lemma for_each_app {A} (xs ys : list A) (body : A -> io unit) :
  for_each (xs ++ ys)%list body = bind (for_each xs body) (fun _ => for_each ys body).
Proof.
  induction xs as [|x xs IH]; cbn [for_each app].
  - now rewrite bind_ret_l.
  - now rewrite IH, bind_assoc.
Qed.

(** ** More on the section header printer *)


(** X2. For a list as content, [print_section] writes after the
    header one [print] call per element, in order and whatever the
    elements are; the text of each call is the marker [sss], a space
    and the text of the element. *)
Theorem print_section_list_items (title : value) (l : list value) (width : Z) :
  let body := map (fun item => Println ("sss " ++ str item)) l in
  print_section title (VList l) width = ((header_prints title width ++ body)%list, Returns tt)
  /\ length body = length l
  /\ printed body = unlines (map (fun item => "sss " ++ str item) l).
Proof.
  cbv zeta. split; [apply print_section_list|]. split; [apply length_map|].
  now rewrite <- (map_map (fun item => "sss " ++ str item) Println), printed_prints.
Qed.

(** X3. Content that is truthy and no list (a text, a number, a
    mapping handed over directly) is written by one [print] call
    after the header, as its text. *)
Theorem print_section_plain_content (title content : value) (width : Z) :
  truthy content = true -> isinstance_list content = false ->
  print_section title content width =
    ((header_prints title width ++ [Println (str content)])%list, Returns tt).
Proof. apply print_section_plain. Qed.

Lemma print_section_plain_content_witness :
  printed (skipn 3 (trace (print_section (VStr "Stats") (VDict [("Total", VInt 100)]) 10))) =
    "{'Total': 100}" ++ nl.
Proof.
  rewrite (print_section_plain_content (VStr "Stats") (VDict [("Total", VInt 100)]) 10
             eq_refl eq_refl).
  reflexivity.
Defined.

(** X4. When the title's text holds no line break, a call without
    content writes exactly four lines: a blank line, the separator,
    the title behind one space, the separator. *)
Theorem print_section_four_lines (title : value) (width : Z) :
  no_newline (str title) ->
  lines (printed (trace (print_section title VNone width))) =
    [EmptyString; str_mul "=" width; " " ++ str title; str_mul "=" width].
Proof.
  intros Ht. rewrite print_section_no_content. cbn [trace fst].
  rewrite printed_header_prints. apply lines_unlines.
  assert (Hsep : no_newline (str_mul "=" width)).
  { unfold no_newline, str_mul.
    induction (Z.to_nat width) as [|n IH]; [reflexivity | exact IH]. }
  repeat constructor; try exact Hsep. exact Ht.
Qed.

Lemma print_section_four_lines_witness :
  lines (printed (trace (print_section (VStr "Results") VNone 5))) =
    [EmptyString; "====="; " Results"; "====="].
Proof. exact (print_section_four_lines (VStr "Results") 5 eq_refl). Defined.

(** ** More on the key-value printer *)

(** X5. Data that is no mapping makes [print_dict] raise an
    AttributeError; the heading has been written by then and nothing
    follows it. *)
Theorem print_dict_not_mapping (data title : value) (key_width : Z) :
  not_dict data ->
  print_dict data title key_width = (heading_prints title, Raises AttributeError).
Proof.
  unfold not_dict. intros Hd. rewrite print_dict_unfold.
  destruct data; try discriminate; cbn; now rewrite app_nil_r.
Qed.

Lemma print_dict_not_mapping_witness :
  print_dict (VList [VStr "a"]) VNone 20 = ([Println EmptyString], Raises AttributeError).
Proof. exact (print_dict_not_mapping (VList [VStr "a"]) VNone 20 eq_refl). Defined.

(** X6. A negative key width makes [print_dict] raise a ValueError
    at the first entry, before any entry is written; an empty mapping
    has no entry to format and returns normally. *)
Theorem print_dict_width_below_zero (entry : label * value) (M : dict)
    (title : value) (key_width : Z) :
  key_width < 0 ->
  print_dict (VDict (entry :: M)) title key_width = (heading_prints title, Raises ValueError)
  /\ print_dict (VDict []) title key_width = (heading_prints title, Returns tt).
Proof.
  intros Hw. rewrite !print_dict_unfold. split.
  - destruct entry as [key v]. cbn [items_of items]. rewrite bind_ret_l.
    cbn [for_each]. unfold format_key, format_ljust.
    destruct (Z.ltb_spec key_width 0); [|lia].
    cbn. now rewrite app_nil_r.
  - cbn. now rewrite app_nil_r.
Qed.

Lemma print_dict_width_below_zero_witness :
  print_dict (VDict [("Name", VStr "Alice"); ("Age", VInt 30)]) (VStr "Info") (-1) =
    (header_prints (VStr "Info") 50, Raises ValueError).
Proof.
  exact (proj1 (print_dict_width_below_zero ("Name", VStr "Alice") [("Age", VInt 30)]
                  (VStr "Info") (-1) eq_refl)).
Defined.

(** X7. A title that is falsy (an empty text, zero, an empty list)
    counts as no title for [print_dict] and for [print_table]: the
    run is that of a call without title. *)
Theorem falsy_title_is_no_title tabulate (data title : value)
    (key_width : Z) (table_format : string) :
  truthy title = false ->
  print_dict data title key_width = print_dict data VNone key_width
  /\ print_table tabulate data title table_format =
       print_table tabulate data VNone table_format.
Proof.
  intros Ht. unfold print_dict, print_table. now rewrite Ht.
Qed.

Lemma falsy_title_is_no_title_witness :
  print_dict (VDict [("a", VInt 1)]) (VStr EmptyString) 3 =
    ([Println EmptyString; Println "a.. 1"], Returns tt).
Proof.
  rewrite (proj1 (falsy_title_is_no_title (fun _ _ _ => Raises RendererError)
                    (VDict [("a", VInt 1)]) (VStr EmptyString) 3 "grid" eq_refl)).
  reflexivity.
Defined.

(** ** More on the plain table printer *)

Lemma bind_same {A B} (m : io A) (k1 k2 : io B) :
  k1 = k2 -> bind m (fun _ => k1) = bind m (fun _ => k2).
Proof. now intros ->. Qed.

Lemma comprehension_values_raises (l : list value) :
  Exists not_dict l -> comprehension values_of l = raise AttributeError.
Proof.
  unfold not_dict.
  induction l as [|x l IH]; intros H; inversion H as [? ? Hx|? ? Hl]; subst.
  - destruct x; try discriminate; reflexivity.
  - destruct x; try reflexivity.
    cbn [comprehension values_of]. rewrite bind_ret_l, (IH Hl). reflexivity.
Qed.

Lemma print_table_rows_run tabulate (first : dict) (more : list dict)
    (title : value) (table_format : string) :
  print_table tabulate (VList (map VDict (first :: more))) title table_format =
    match tabulate (map values (first :: more)) (keys first) table_format with
    | Returns text => ((heading_prints title ++ [Println text])%list, Returns tt)
    | Raises e => (heading_prints title, Raises e)
    end.
Proof.
  rewrite print_table_rows, bind_emits.
  destruct (tabulate (map values (first :: more)) (keys first) table_format) as [text|e].
  - reflexivity.
  - cbn. now rewrite app_nil_r.
Qed.

(** X8. For any non-empty list of mappings, uniform or not,
    [print_table] calls the renderer once, with the keys of the first
    row as headers, every row's own values in that row's own order,
    and the format token unchanged.  The text the renderer returns is
    printed after the heading; an exception the renderer raises is the
    outcome of [print_table], with nothing printed after the
    heading. *)
Theorem print_table_renderer_outcome tabulate (first : dict) (more : list dict)
    (title : value) (table_format : string) :
  print_table tabulate (VList (map VDict (first :: more))) title table_format =
    match tabulate (map values (first :: more)) (keys first) table_format with
    | Returns text => ((heading_prints title ++ [Println text])%list, Returns tt)
    | Raises e => (heading_prints title, Raises e)
    end.
Proof. apply print_table_rows_run. Qed.

(** X9. A list that holds an element which is no mapping makes
    [print_table] raise an AttributeError, whatever the renderer is:
    the heading has been written, and no table text follows. *)
Theorem print_table_bad_row tabulate (l : list value) (title : value) (table_format : string) :
  Exists not_dict l ->
  print_table tabulate (VList l) title table_format =
    (heading_prints title, Raises AttributeError).
Proof.
  intros H. rewrite print_table_unfold, bind_emits. cbv beta.
  match goal with
  | |- context [result ?K] => assert (HK : K = raise AttributeError)
  end.
  { destruct l as [|x l]; [inversion H|].
    cbn [truthy getitem0]. rewrite bind_ret_l.
    destruct x; try reflexivity.
    cbn [keys_of iterate]. rewrite !bind_ret_l.
    rewrite (comprehension_values_raises _ H). reflexivity. }
  rewrite HK. cbn. now rewrite app_nil_r.
Qed.

Lemma print_table_bad_row_witness :
  print_table (fun _ _ _ => Returns "table")
    (VList [VDict [("a", VInt 1)]; VStr "oops"]) VNone "grid" =
    ([Println EmptyString], Raises AttributeError).
Proof.
  apply (print_table_bad_row (fun _ _ _ => Returns "table")
           [VDict [("a", VInt 1)]; VStr "oops"] VNone "grid").
  right. left. reflexivity.
Defined.

(** ** More on the styled table printer *)

Lemma add_rows_raises (l : list value) (t : Table) :
  Exists not_dict l ->
  for_fold l (fun table row_data =>
      bind (values_of row_data) (fun cells =>
      ret (add_row (map str cells) table))) t = raise AttributeError.
Proof.
  unfold not_dict. revert t.
  induction l as [|x l IH]; intros t H; inversion H as [? ? Hx|? ? Hl]; subst.
  - destruct x; try discriminate; reflexivity.
  - destruct x; try reflexivity.
    cbn [for_fold values_of]. rewrite !bind_ret_l. now apply IH.
Qed.

(** X10. A list that holds an element which is no mapping makes
    [print_rich_table] raise an AttributeError before anything is
    handed to the console: no partial table is shown. *)
Theorem print_rich_table_bad_row console (l : list value) (title : value)
    (columns : option dict) :
  Exists not_dict l ->
  print_rich_table console (VList l) title (optional_dict columns) =
    ([], Raises AttributeError).
Proof.
  intros H. rewrite print_rich_table_unfold.
  match goal with
  | |- bind ?K _ = _ => assert (HK : K = raise AttributeError)
  end.
  { destruct l as [|x l]; [inversion H|].
    cbn [truthy getitem0]. rewrite bind_ret_l.
    destruct x; try reflexivity.
    cbn [keys_of]. rewrite bind_ret_l.
    rewrite add_columns_run, bind_ret_l. cbn [iterate]. rewrite bind_ret_l.
    now rewrite (add_rows_raises _ _ H). }
  now rewrite HK.
Qed.

Lemma print_rich_table_bad_row_witness :
  print_rich_table (fun _ => Returns tt) (VList [VDict [("a", VInt 1)]; VInt 7])
    (VStr "T") VNone =
    ([], Raises AttributeError).
Proof.
  apply (print_rich_table_bad_row (fun _ => Returns tt)
           [VDict [("a", VInt 1)]; VInt 7] (VStr "T") None).
  right. left. reflexivity.
Defined.

(** X11. Whatever its arguments and the console are,
    [print_rich_table] makes no [print] call and calls the console at
    most once, as its last action: either building the table raises
    and nothing has been handed to the console, or the run is the
    console's print of one table. *)
Theorem print_rich_table_one_console_call console (data title columns : value) :
  (exists e, print_rich_table console data title columns = ([], Raises e))
  \/ (exists t, print_rich_table console data title columns = console_print console t).
Proof.
  rewrite print_rich_table_unfold.
  match goal with
  | |- context [bind ?K (console_print console)] =>
      assert (HK : silent K); [|set (k := K) in *]
  end.
  { destruct (truthy data); [|reflexivity].
    apply silent_bind; [apply silent_getitem0 | intros first].
    apply silent_bind; [apply silent_keys_of | intros headers].
    apply silent_bind.
    - apply silent_for_fold. intros table header.
      apply silent_bind; [|reflexivity].
      destruct (truthy columns); [apply silent_get_of | reflexivity].
    - intros table. apply silent_bind; [apply silent_iterate | intros data_items].
      apply silent_for_fold. intros table' row_data.
      apply silent_bind; [apply silent_values_of | reflexivity]. }
  unfold silent in HK. destruct k as [tr [t|e]]; cbn in HK; subst tr.
  - right. exists t. apply bind_ret_l.
  - left. now exists e.
Qed.

(** ** More on the dispatcher *)

Lemma print_results_cons tabulate (title : label) (content : value) (rest : dict) :
  print_results tabulate ((title, content) :: rest) =
    bind (route tabulate title content) (fun _ => print_results tabulate rest).
Proof.
  unfold print_results, items. now rewrite for_each_cons, dispatch_route.
Qed.


Lemma print_results_concat tabulate (before after : dict) :
  print_results tabulate (before ++ after)%list =
    bind (print_results tabulate before) (fun _ => print_results tabulate after).
Proof. unfold print_results, items. apply for_each_app. Qed.

(** X12. Handling two runs of sections one after the other is
    handling their concatenation: [print_results] composes in the
    order of its arguments. *)
Theorem print_results_app tabulate (before after : dict) :
  print_results tabulate (before ++ after)%list =
    (print_results tabulate before ;; print_results tabulate after).
Proof. apply print_results_concat. Qed.

(** X13. When the handling of a section raises, [print_results]
    stops there: the sections behind it are not handled, so the run
    is the same as if they had not been passed. *)
Theorem print_results_stops tabulate (before rest : dict)
    (title : label) (content : value) (e : exn) :
  result (route tabulate title content) = Raises e ->
  print_results tabulate (before ++ (title, content) :: rest)%list =
    print_results tabulate (before ++ [(title, content)])%list
  /\ print_results tabulate ((title, content) :: rest) =
       (trace (route tabulate title content), Raises e).
Proof.
  intros He.
  assert (Hcut : forall tail, print_results tabulate ((title, content) :: tail) =
                              (trace (route tabulate title content), Raises e)).
  { intros tail. rewrite print_results_cons. now apply bind_raises. }
  split; [|apply Hcut].
  rewrite !print_results_concat. apply bind_same. now rewrite !Hcut.
Qed.

Lemma print_results_stops_witness :
  print_results (fun _ _ _ => Returns "table")
    [("Rows", VList [VDict [("a", VInt 1)]; VInt 5]); ("Summary", VStr "done")] =
    (header_prints (VStr "Rows") 50, Raises AttributeError).
Proof.
  exact (proj2 (print_results_stops (fun _ _ _ => Returns "table") []
                  [("Summary", VStr "done")] "Rows"
                  (VList [VDict [("a", VInt 1)]; VInt 5]) AttributeError eq_refl)).
Defined.




Lemma prints_only_print_section (title content : value) (width : Z) :
  prints_only (print_section title content width).
Proof.
  unfold print_section.
  repeat (apply prints_only_bind; [apply prints_only_print | intros _]).
  destruct (truthy content); [|reflexivity].
  destruct (isinstance_list content); [|apply prints_only_print].
  apply prints_only_bind; [apply prints_only_silent, silent_iterate | intros l].
  apply prints_only_for_each. intros item. apply prints_only_print.
Qed.

Lemma prints_only_heading (title : value) :
  prints_only (if truthy title then print_section title VNone default_width else print []).
Proof.
  destruct (truthy title); [apply prints_only_print_section | reflexivity].
Qed.

Lemma prints_only_print_dict (data title : value) (key_width : Z) :
  prints_only (print_dict data title key_width).
Proof.
  unfold print_dict.
  apply prints_only_bind; [apply prints_only_heading | intros _].
  apply prints_only_bind; [apply prints_only_silent, silent_items_of | intros entries].
  apply prints_only_for_each. intros [key v].
  apply prints_only_bind; [apply prints_only_silent, silent_format_key | intros padded].
  apply prints_only_print.
Qed.

Lemma prints_only_print_table tabulate (data title : value) (table_format : string) :
  prints_only (print_table tabulate data title table_format).
Proof.
  unfold print_table.
  apply prints_only_bind; [apply prints_only_heading | intros _].
  destruct (truthy data); [|reflexivity].
  apply prints_only_bind; [apply prints_only_silent, silent_getitem0 | intros first].
  apply prints_only_bind; [apply prints_only_silent, silent_keys_of | intros headers].
  apply prints_only_bind; [apply prints_only_silent, silent_iterate | intros data_items].
  apply prints_only_bind;
    [apply prints_only_silent, silent_comprehension, silent_values_of | intros rows].
  apply prints_only_bind; [reflexivity | intros text].
  apply prints_only_print.
Qed.

(** X15. Whatever the sections and the renderer are, and whether the
    run returns or raises, [print_results] (and with it
    [print_section], [print_dict] and [print_table]) writes through
    [print] only: nothing is handed to the styled console. *)
Theorem print_results_prints_only tabulate (sections : dict) :
  prints_only (print_results tabulate sections)
  /\ (forall title content width, prints_only (print_section title content width))
  /\ (forall data title key_width, prints_only (print_dict data title key_width))
  /\ (forall data title table_format,
        prints_only (print_table tabulate data title table_format)).
Proof.
  split; [|split; [|split]].
  - unfold print_results. apply prints_only_for_each. intros [title content].
    rewrite dispatch_route. unfold route.
    destruct (shape_of content).
    + apply prints_only_print_dict.
    + apply prints_only_print_table.
    + apply prints_only_print_section.
  - apply prints_only_print_section.
  - apply prints_only_print_dict.
  - apply prints_only_print_table.
Qed.

(** ** Falsy data and the defaults of the dispatcher *)

(** X16. Data that is falsy, of whatever type (an empty list, None,
    an empty text, an empty mapping, zero), is taken as no rows by
    both table printers: [print_table] writes its heading only and
    [print_rich_table] shows a table with the title alone; neither
    raises, and neither looks at the renderer or the style mapping. *)
Theorem falsy_data_no_rows tabulate console (data title columns : value)
    (table_format : string) :
  truthy data = false ->
  print_table tabulate data title table_format = (heading_prints title, Returns tt)
  /\ print_rich_table console data title columns =
       ([ConsolePrint (mkTable title [] [])], Returns tt).
Proof.
  intros Hd. split.
  - rewrite print_table_unfold, Hd, bind_emits. cbn. now rewrite app_nil_r.
  - rewrite print_rich_table_unfold, Hd. reflexivity.
Qed.

Lemma falsy_data_no_rows_witness :
  print_table (fun _ _ _ => Raises RendererError) VNone (VStr "Students") "grid" =
    (header_prints (VStr "Students") 50, Returns tt).
Proof.
  exact (proj1 (falsy_data_no_rows (fun _ _ _ => Raises RendererError)
                  (fun _ => Raises RendererError)
                  VNone (VStr "Students") VNone "grid" eq_refl)).
Defined.

Lemma bind_ret_tt (m : io unit) : bind m (fun _ => ret tt) = m.
Proof.
  destruct m as [tr [[]|e]]; unfold bind; cbn; [|reflexivity].
  now rewrite app_nil_r.
Qed.

(** X17. Through the dispatcher the printers run with their default
    arguments.  A mapping is listed with key width 20; a list of
    mappings is rendered with the format [grid], the keys of its
    first row as headers, and the renderer's outcome decides the
    outcome; both stand under the header of their name, or under a
    blank line when the name is the empty text.  Any other content
    stands under a header of width 50, with the empty name too. *)
Theorem print_results_single_section tabulate (title : label) :
  (forall d,
     print_results tabulate [(title, VDict d)] =
       ((heading_prints (VStr title)
           ++ map (fun entry => Println (entry_line 20 entry)) d)%list, Returns tt))
  /\ (forall first more,
        print_results tabulate [(title, VList (map VDict (first :: more)))] =
          match tabulate (map values (first :: more)) (keys first) "grid" with
          | Returns text => ((heading_prints (VStr title) ++ [Println text])%list, Returns tt)
          | Raises e => (heading_prints (VStr title), Raises e)
          end)
  /\ (forall text,
        print_results tabulate [(title, VStr text)] =
          ((header_prints (VStr title) 50
              ++ (if truthy (VStr text) then [Println text] else []))%list, Returns tt)).
Proof.
  split; [|split].
  - intros d. rewrite print_results_cons. change (print_results tabulate []) with (ret tt).
    rewrite bind_ret_tt. unfold route. cbn [shape_of].
    apply print_dict_run. unfold default_key_width. lia.
  - intros first more. rewrite print_results_cons.
    change (print_results tabulate []) with (ret tt). rewrite bind_ret_tt.
    unfold route. cbn [shape_of map].
    change (VDict first :: map VDict more) with (map VDict (first :: more)).
    apply print_table_rows_run.
  - intros text. rewrite print_results_cons.
    change (print_results tabulate []) with (ret tt). rewrite bind_ret_tt.
    unfold route. cbn [shape_of].
    destruct (truthy (VStr text)) eqn:Ht.
    + now rewrite (print_section_plain _ _ _ Ht eq_refl).
    + rewrite (print_section_skips _ _ _ Ht). now rewrite app_nil_r.
Qed.
